(** * The query-engine wasm loader of the driver-adapters executor

    A shallow embedding of
    [libs/driver-adapters/executor/src/query-engine-wasm.ts]: the async
    function [getQueryEngineForProvider] and the module-level set
    [initializedModules], together with the part of the JavaScript host the
    function talks to (dynamic [import()], [fs.readFile], the
    [WebAssembly.Module] and [WebAssembly.Instance] constructors, the glue
    module's [__wbg_set_wasm] and the wasm export [__wbindgen_start]).

    The host is an explicit [world]; the function is written in a small
    state-and-exception monad over it, and a second time cut at its two
    [await]s, so that several pending calls can be interleaved. *)

From stdpp Require Import gmap strings list.

Open Scope string_scope.
Open Scope list_scope.

(** ** JavaScript values and failures *)

(** What the caller receives: [undefined], or a reference to an object (the
    [QueryEngine] class of a glue module), compared by address. *)
Inductive value : Type :=
| undefined
| object (addr : nat).

(** What a call can throw. The loader has no [try]/[catch] and wraps
    nothing: each failure is the one its collaborator raised. They are named
    after the failure classes of the loader's description: the rejection of
    [normaliseProvider], a missing file ([import()] or [fs.readFile], the
    path attached), a rejected compile or instantiate, a throwing
    [__wbindgen_start]; [TypeError] is what JavaScript raises when a missing
    export is called. *)
Inductive exn : Type :=
| ConfigurationError (provider : string)
| ArtifactNotFoundError (path : string)
| ModuleLinkError
| ModuleInitError
| TypeError.

Inductive completion (A : Type) : Type :=
| Return (a : A)
| Throw (e : exn).
Arguments Return {A} a.
Arguments Throw {A} e.

(** ** The glue module and the wasm module *)

(** The exports of a [query_engine_bg.js] the loader touches:
    [engine.QueryEngine] ([undefined] when the module has no such export)
    and whether [engine.__wbg_set_wasm] is a function. *)
Record glue : Type := {
  QueryEngine : value;
  __wbg_set_wasm : bool
}.

(** The namespace object [import()] resolves to. A specifier always
    resolves to the same namespace object, so the specifier is its
    identity. *)
Record namespace : Type := {
  specifier : string;
  exports : glue
}.

(** The export [__wbindgen_start] of an instance: missing, or a function
    that returns, or a function that throws. *)
Inductive start_export : Type :=
| start_missing
| start_returns
| start_throws.

(** A compiled [WebAssembly.Module], as far as the loader observes it:
    whether instantiation with a given glue module as the import namespace
    ['./query_engine_bg.js'] links, and what its start export does. *)
Record wasm_module : Type := {
  links_with : glue -> bool;
  __wbindgen_start : start_export
}.

(** A [WebAssembly.Instance]: every [new] makes a fresh one, numbered in
    creation order; [instance.exports] is identified with it. *)
Record wasm_instance : Type := {
  instance_id : nat;
  instance_of : wasm_module
}.

(** ** Observable actions *)

(** The log records, for the call of which raw provider, each host operation
    the function invokes, in order. *)
Inductive action : Type :=
| Import (spec : string)
| ReadFile (path : string)
| Compile
| Instantiate (spec : string)
| SetWasm (spec : string) (inst : nat)
| Start (inst : nat)
| Mark.

Definition event : Type := string * action.

#[global] Instance value_eq_dec : EqDecision value.
Proof. solve_decision. Defined.

#[global] Instance exn_eq_dec : EqDecision exn.
Proof. solve_decision. Defined.

#[global] Instance action_eq_dec : EqDecision action.
Proof. solve_decision. Defined.

(** ** The world *)

Record world : Type := {
  (** [const initializedModules = new Set()] (line 8) *)
  initializedModules : gset string;
  (** what [import(specifier)] resolves to; absent: the import rejects *)
  module_map : gmap string glue;
  (** the files [fs.readFile] can read, by resolved path *)
  files : gmap string (list Byte.byte);
  (** per glue module, the export table last passed to [__wbg_set_wasm]
      (the glue module's own [wasm] variable) *)
  glue_wasm : gmap string nat;
  (** how many [WebAssembly.Instance]s have been made *)
  instances : nat;
  (** the log, oldest first *)
  trace : list event
}.

Definition set_initializedModules (s : gset string) (w : world) : world :=
  {| initializedModules := s; module_map := module_map w; files := files w;
     glue_wasm := glue_wasm w; instances := instances w; trace := trace w |}.

Definition set_files (f : gmap string (list Byte.byte)) (w : world) : world :=
  {| initializedModules := initializedModules w; module_map := module_map w;
     files := f; glue_wasm := glue_wasm w; instances := instances w;
     trace := trace w |}.

Definition set_glue_wasm (b : gmap string nat) (w : world) : world :=
  {| initializedModules := initializedModules w; module_map := module_map w;
     files := files w; glue_wasm := b; instances := instances w;
     trace := trace w |}.

Definition set_instances (n : nat) (w : world) : world :=
  {| initializedModules := initializedModules w; module_map := module_map w;
     files := files w; glue_wasm := glue_wasm w; instances := n;
     trace := trace w |}.

Definition set_trace (t : list event) (w : world) : world :=
  {| initializedModules := initializedModules w; module_map := module_map w;
     files := files w; glue_wasm := glue_wasm w; instances := instances w;
     trace := t |}.

(** Every export table a glue module holds belongs to an instance that has
    been made. *)
Definition world_wf (w : world) : Prop :=
  forall spec i, glue_wasm w !! spec = Some i -> i < instances w.

(** ** The monad: state and exceptions over the world *)

Definition M (A : Type) : Type := world -> completion A * world.

#[global] Instance M_ret : MRet M := fun A a w => (Return a, w).

#[global] Instance M_bind : MBind M := fun A B k m w =>
  match m w with
  | (Return a, w') => k a w'
  | (Throw e, w') => (Throw e, w')
  end.

Definition throw {A} (e : exn) : M A := fun w => (Throw e, w).

Definition gets {A} (f : world -> A) : M A := fun w => (Return (f w), w).

Definition modify (f : world -> world) : M unit := fun w => (Return tt, f w).

Definition emit (provider : string) (a : action) : M unit :=
  modify (fun w => set_trace (trace w ++ [(provider, a)]) w).

(** Kinds of action. The actions of one initialisation, steps (a)-(e), are
    all but the module resolution: the payload read, compile, instantiate,
    bind, start, mark. *)
Definition is_read (a : action) : bool :=
  match a with ReadFile _ => true | _ => false end.

Definition is_compile (a : action) : bool :=
  match a with Compile => true | _ => false end.

Definition is_instantiate (a : action) : bool :=
  match a with Instantiate _ => true | _ => false end.

Definition is_set_wasm (a : action) : bool :=
  match a with SetWasm _ _ => true | _ => false end.

Definition is_start (a : action) : bool :=
  match a with Start _ => true | _ => false end.

Definition is_mark (a : action) : bool :=
  match a with Mark => true | _ => false end.

Definition is_init_action (a : action) : bool :=
  match a with Import _ => false | _ => true end.

(** How often a call for [provider] did an action of the given kind. *)
Definition occurrences (kind : action -> bool) (provider : string)
  (t : list event) : nat :=
  length (filter (fun e => e.1 = provider /\ kind e.2 = true) t).

(** [const relativePath] (line 6) *)
Definition relativePath : string := "../../../../query-engine/query-engine-wasm/pkg".

(** [log w evs]: the world [w] with [evs] appended to its log. *)
Definition log (w : world) (evs : list event) : world :=
  set_trace (trace w ++ evs) w.

(** The world a successful first initialisation of [provider] leaves behind:
    a new instance, bound to the glue module, started, and the provider
    marked; the log says in which order. *)
Definition initialised (provider spec path : string) (w : world) : world :=
  {| initializedModules := {[provider]} ∪ initializedModules w;
     module_map := module_map w;
     files := files w;
     glue_wasm := <[spec := instances w]> (glue_wasm w);
     instances := S (instances w);
     trace := trace w ++ [(provider, Import spec); (provider, ReadFile path);
                          (provider, Compile); (provider, Instantiate spec);
                          (provider, SetWasm spec (instances w));
                          (provider, Start (instances w)); (provider, Mark)] |}.

(** The world a first initialisation leaves behind when the start export
    throws: the instance is made and bound, the provider is not marked. *)
Definition start_failed (provider spec path : string) (w : world) : world :=
  {| initializedModules := initializedModules w;
     module_map := module_map w;
     files := files w;
     glue_wasm := <[spec := instances w]> (glue_wasm w);
     instances := S (instances w);
     trace := trace w ++ [(provider, Import spec); (provider, ReadFile path);
                          (provider, Compile); (provider, Instantiate spec);
                          (provider, SetWasm spec (instances w));
                          (provider, Start (instances w))] |}.

(** The world after a first initialisation that got as far as making the
    instance ([bound = false]) or as far as binding it ([bound = true]), and
    then threw a [TypeError]. *)
Definition instantiated (bound : bool) (provider spec path : string) (w : world)
  : world :=
  {| initializedModules := initializedModules w;
     module_map := module_map w;
     files := files w;
     glue_wasm := if bound then <[spec := instances w]> (glue_wasm w) else glue_wasm w;
     instances := S (instances w);
     trace := trace w ++ [(provider, Import spec); (provider, ReadFile path);
                          (provider, Compile); (provider, Instantiate spec)]
                      ++ (if bound
                          then [(provider, SetWasm spec (instances w))]
                          else []) |}.

(** The world lines 28-35 leave behind when they run through: what
    [initialised] adds after the payload read. *)
Definition linked (provider spec : string) (w : world) : world :=
  {| initializedModules := {[provider]} ∪ initializedModules w;
     module_map := module_map w;
     files := files w;
     glue_wasm := <[spec := instances w]> (glue_wasm w);
     instances := S (instances w);
     trace := trace w ++ [(provider, Compile); (provider, Instantiate spec);
                          (provider, SetWasm spec (instances w));
                          (provider, Start (instances w)); (provider, Mark)] |}.

(** ** Schedules of two requests *)

(** All the ways to merge the turns of two calls, each kept in order. *)
Fixpoint interleavings (xs ys : list nat) : list (list nat) :=
  match xs with
  | [] => [ys]
  | x :: xs' =>
      (fix merge_into (ys : list nat) : list (list nat) :=
         match ys with
         | [] => [x :: xs']
         | y :: ys' =>
             map (cons x) (interleavings xs' (y :: ys'))
             ++ map (cons y) (merge_into ys')
         end) ys
  end.

(** The place in the schedule of the turn number [k] (from 0) of call [i]. *)
Fixpoint turn (k i : nat) (schedule : list nat) : nat :=
  match schedule with
  | [] => 0
  | j :: rest =>
      if bool_decide (i = j)
      then match k with
           | 0 => 0
           | S k' => S (turn k' i rest)
           end
      else S (turn k i rest)
  end.

(** Both calls are resumed from their [await import] (their turn 1, which
    evaluates the guard of line 18) before either runs lines 28-35 (its
    turn 2). *)
Definition overlaps (schedule : list nat) : bool :=
  bool_decide (turn 1 0 schedule < turn 2 1 schedule)
  && bool_decide (turn 1 1 schedule < turn 2 0 schedule).

(** What the request for at most one initialisation asks of a log. *)
Definition at_most_one_initialisation (provider : string) (t : list event) : Prop :=
  occurrences is_compile provider t <= 1 /\
  occurrences is_instantiate provider t <= 1 /\
  occurrences is_start provider t <= 1.

(** ** What the loader takes from its surroundings *)

(** The loader is a function of four things it imports.

    Modelled from the spec: [normaliseProvider] is imported from [./utils],
    which is not among the sources. It is a pure, deterministic mapping from
    a provider identifier to its directory segment, total over the supported
    providers, and it fails on an unsupported identifier; [None] stands for
    that failure, which the loader's caller sees as a [ConfigurationError].

    [__dirname] is the other import from [./utils], [path_resolve] is
    [path.resolve] of [node:path], and [WebAssembly_Module] is the host's
    [new WebAssembly.Module(bytes)]: the compiled module, or [None] when the
    payload is rejected. *)
Class host : Type := {
  normaliseProvider : string -> option string;
  __dirname : string;
  path_resolve : list string -> string;
  WebAssembly_Module : list Byte.byte -> option wasm_module
}.

(** ** The loader *)

Section Loader.

Context {platform : host}.

(** *** Host operations *)

Definition normalise (provider : string) : M string :=
  match normaliseProvider provider with
  | Some normalisedProvider => mret normalisedProvider
  | None => throw (ConfigurationError provider)
  end.

(** [import(spec)] starts the load and yields a promise, here already
    settled; [await] delivers it or rethrows. *)
Definition dynamic_import (provider spec : string) : M (completion namespace) :=
  emit provider (Import spec);;
  gets (fun w =>
    match module_map w !! spec with
    | Some g => Return {| specifier := spec; exports := g |}
    | None => Throw (ArtifactNotFoundError spec)
    end).

Definition fs_readFile (provider path : string) : M (completion (list Byte.byte)) :=
  emit provider (ReadFile path);;
  gets (fun w =>
    match files w !! path with
    | Some bytes => Return bytes
    | None => Throw (ArtifactNotFoundError path)
    end).

Definition await {A} (pending : completion A) : M A :=
  match pending with
  | Return a => mret a
  | Throw e => throw e
  end.

Definition new_WebAssembly_Module (provider : string) (bytes : list Byte.byte)
  : M wasm_module :=
  emit provider Compile;;
  match WebAssembly_Module bytes with
  | Some module => mret module
  | None => throw ModuleLinkError
  end.

Definition new_WebAssembly_Instance (provider : string) (module : wasm_module)
  (engine : namespace) : M wasm_instance :=
  emit provider (Instantiate (specifier engine));;
  if links_with module (exports engine)
  then id ← gets instances;
       modify (set_instances (S id));;
       mret {| instance_id := id; instance_of := module |}
  else throw ModuleLinkError.

(** [engine.__wbg_set_wasm(instance.exports)] *)
Definition call_set_wasm (provider : string) (engine : namespace)
  (instance : wasm_instance) : M unit :=
  if __wbg_set_wasm (exports engine)
  then emit provider (SetWasm (specifier engine) (instance_id instance));;
       modify (fun w =>
         set_glue_wasm (<[specifier engine := instance_id instance]> (glue_wasm w)) w)
  else throw TypeError.

(** [wbindgen_start()] *)
Definition call_start (provider : string) (instance : wasm_instance)
  (wbindgen_start : start_export) : M unit :=
  match wbindgen_start with
  | start_missing => throw TypeError
  | start_returns => emit provider (Start (instance_id instance))
  | start_throws => emit provider (Start (instance_id instance));; throw ModuleInitError
  end.

Definition initializedModules_has (provider : string) : M bool :=
  gets (fun w => bool_decide (provider ∈ initializedModules w)).

Definition initializedModules_add (provider : string) : M unit :=
  emit provider Mark;;
  modify (fun w => set_initializedModules ({[provider]} ∪ initializedModules w) w).

(** *** [getQueryEngineForProvider] *)

Definition glue_specifier (normalisedProvider : string) : string :=
  relativePath +:+ "/" +:+ normalisedProvider +:+ "/query_engine_bg.js".

Definition wasm_path (normalisedProvider : string) : string :=
  path_resolve [__dirname; relativePath; normalisedProvider; "query_engine_bg.wasm"].

(** Lines 28-35: the synchronous stretch after the payload has arrived. *)
Definition initialise (provider : string) (engine : namespace)
  (bytes : list Byte.byte) : M unit :=
  module ← new_WebAssembly_Module provider bytes;
  instance ← new_WebAssembly_Instance provider module engine;
  let wbindgen_start := __wbindgen_start (instance_of instance) in
  call_set_wasm provider engine instance;;
  call_start provider instance wbindgen_start;;
  initializedModules_add provider.

(** Lines 10-39, run without another call in between. *)
Definition getQueryEngineForProvider (provider : string) : M value :=
  normalisedProvider ← normalise provider;
  pending ← dynamic_import provider (glue_specifier normalisedProvider);
  engine ← await pending;
  has ← initializedModules_has provider;
  (if negb has
   then pending ← fs_readFile provider (wasm_path normalisedProvider);
        bytes ← await pending;
        initialise provider engine bytes
   else mret tt);;
  mret (QueryEngine (exports engine)).

(** *** The same function, cut at its two [await]s *)

(** A call in flight: not yet started; suspended at the [await import]
    (line 14); suspended at the [await fs.readFile] (line 19); or settled. *)
Inductive task : Type :=
| Called (provider : string)
| AwaitImport (provider normalisedProvider : string) (pending : completion namespace)
| AwaitReadFile (provider normalisedProvider : string) (engine : namespace)
    (pending : completion (list Byte.byte))
| Settled (c : completion value).

Definition run_segment (m : M task) (w : world) : task * world :=
  match m w with
  | (Return t, w') => (t, w')
  | (Throw e, w') => (Settled (Throw e), w')
  end.

(** Run a call from where it stands to its next suspension. *)
Definition resume (t : task) : world -> task * world :=
  match t with
  | Called provider =>
      run_segment
        (normalisedProvider ← normalise provider;
         pending ← dynamic_import provider (glue_specifier normalisedProvider);
         mret (AwaitImport provider normalisedProvider pending))
  | AwaitImport provider normalisedProvider pending =>
      run_segment
        (engine ← await pending;
         has ← initializedModules_has provider;
         if negb has
         then pending ← fs_readFile provider (wasm_path normalisedProvider);
              mret (AwaitReadFile provider normalisedProvider engine pending)
         else mret (Settled (Return (QueryEngine (exports engine)))))
  | AwaitReadFile provider normalisedProvider engine pending =>
      run_segment
        (bytes ← await pending;
         initialise provider engine bytes;;
         mret (Settled (Return (QueryEngine (exports engine)))))
  | Settled c => fun w => (Settled c, w)
  end.

(** The event loop: a schedule names, turn by turn, which call of the pool
    is resumed next. *)
Fixpoint run_schedule (schedule : list nat) (pool : list task) (w : world)
  : list task * world :=
  match schedule with
  | [] => (pool, w)
  | i :: schedule' =>
      match pool !! i with
      | Some t =>
          let '(t', w') := resume t w in
          run_schedule schedule' (<[i := t']> pool) w'
      | None => run_schedule schedule' pool w
      end
  end.

(** Calls made one after the other, each awaited (whatever it settles to)
    before the next is made. *)
Fixpoint call_each (providers : list string) (w : world) : world :=
  match providers with
  | [] => w
  | provider :: rest => call_each rest (getQueryEngineForProvider provider w).2
  end.

(** *** The ways through the function

    One constructor per way through lines 13-38, with the completion the
    caller sees and the world left behind. *)

(** The call gets past the guard of line 18. *)
Definition enters_guard (provider n : string) (g : glue) (w : world) : Prop :=
  normaliseProvider provider = Some n /\
  module_map w !! glue_specifier n = Some g /\
  provider ∉ initializedModules w.

(** It also gets an instance (lines 19-31). *)
Definition gets_instance (provider n : string) (g : glue) (m : wasm_module)
  (w : world) : Prop :=
  enters_guard provider n g w /\
  exists bytes, files w !! wasm_path n = Some bytes /\
                WebAssembly_Module bytes = Some m /\
                links_with m g = true.

Inductive loader_path (provider : string) (w : world)
  : completion value -> world -> Prop :=
| path_unsupported :
    normaliseProvider provider = None ->
    loader_path provider w (Throw (ConfigurationError provider)) w
| path_import_fails n :
    normaliseProvider provider = Some n ->
    module_map w !! glue_specifier n = None ->
    loader_path provider w
      (Throw (ArtifactNotFoundError (glue_specifier n)))
      (log w [(provider, Import (glue_specifier n))])
| path_cached n g :
    normaliseProvider provider = Some n ->
    module_map w !! glue_specifier n = Some g ->
    provider ∈ initializedModules w ->
    loader_path provider w
      (Return (QueryEngine g))
      (log w [(provider, Import (glue_specifier n))])
| path_read_fails n g :
    enters_guard provider n g w ->
    files w !! wasm_path n = None ->
    loader_path provider w
      (Throw (ArtifactNotFoundError (wasm_path n)))
      (log w [(provider, Import (glue_specifier n));
              (provider, ReadFile (wasm_path n))])
| path_compile_fails n g bytes :
    enters_guard provider n g w ->
    files w !! wasm_path n = Some bytes ->
    WebAssembly_Module bytes = None ->
    loader_path provider w
      (Throw ModuleLinkError)
      (log w [(provider, Import (glue_specifier n));
              (provider, ReadFile (wasm_path n)); (provider, Compile)])
| path_link_fails n g bytes m :
    enters_guard provider n g w ->
    files w !! wasm_path n = Some bytes ->
    WebAssembly_Module bytes = Some m ->
    links_with m g = false ->
    loader_path provider w
      (Throw ModuleLinkError)
      (log w [(provider, Import (glue_specifier n));
              (provider, ReadFile (wasm_path n)); (provider, Compile);
              (provider, Instantiate (glue_specifier n))])
| path_set_wasm_missing n g m :
    gets_instance provider n g m w ->
    __wbg_set_wasm g = false ->
    loader_path provider w
      (Throw TypeError)
      (instantiated false provider (glue_specifier n) (wasm_path n) w)
| path_start_missing n g m :
    gets_instance provider n g m w ->
    __wbg_set_wasm g = true ->
    __wbindgen_start m = start_missing ->
    loader_path provider w
      (Throw TypeError)
      (instantiated true provider (glue_specifier n) (wasm_path n) w)
| path_start_throws n g m :
    gets_instance provider n g m w ->
    __wbg_set_wasm g = true ->
    __wbindgen_start m = start_throws ->
    loader_path provider w
      (Throw ModuleInitError)
      (start_failed provider (glue_specifier n) (wasm_path n) w)
| path_initialises n g m :
    gets_instance provider n g m w ->
    __wbg_set_wasm g = true ->
    __wbindgen_start m = start_returns ->
    loader_path provider w
      (Return (QueryEngine g))
      (initialised provider (glue_specifier n) (wasm_path n) w).

End Loader.

(** ** What holds of the worlds the loader reaches *)

Section Reachable.

Context {platform : host}.

(** The glue module of every marked provider holds the export table of an
    instance that has been made. *)
Definition initialised_are_bound (w : world) : Prop :=
  forall provider n,
    provider ∈ initializedModules w ->
    normaliseProvider provider = Some n ->
    exists i, glue_wasm w !! glue_specifier n = Some i /\ i < instances w.

End Reachable.

(** ** A concrete host, for the examples *)

(** Modelled from the spec: the three supported providers name their own
    directory segment; every other identifier (such as ["oracle"]) is
    unsupported. *)
Definition spec_normaliseProvider (provider : string) : option string :=
  if bool_decide (provider ∈ ["postgresql"; "mysql"; "sqlite"])
  then Some provider
  else None.

(** A normaliser that also accepts an alias: ["postgres"] is folded onto the
    segment ["postgresql"]. *)
Definition alias_normaliseProvider (provider : string) : option string :=
  if bool_decide (provider = "postgres")
  then Some "postgresql"
  else spec_normaliseProvider provider.

Definition sample_dirname : string := "/executor/src".

(** Stands in for [path.resolve]: the segments joined by a slash. *)
Definition sample_resolve (segments : list string) : string :=
  String.concat "/" segments.

Definition good_module : wasm_module :=
  {| links_with := fun g => __wbg_set_wasm g; __wbindgen_start := start_returns |}.

Definition trapping_module : wasm_module :=
  {| links_with := fun g => __wbg_set_wasm g; __wbindgen_start := start_throws |}.

(** Stands in for the wasm decoder: the first byte picks the module. *)
Definition sample_compile (bytes : list Byte.byte) : option wasm_module :=
  match bytes with
  | Byte.x00 :: _ => Some good_module
  | Byte.x01 :: _ => Some trapping_module
  | _ => None
  end.

Definition pg_glue : glue := {| QueryEngine := object 7; __wbg_set_wasm := true |}.

(** A glue module that exports no [QueryEngine]. *)
Definition bare_glue : glue := {| QueryEngine := undefined; __wbg_set_wasm := true |}.

Definition pg_specifier : string :=
  "../../../../query-engine/query-engine-wasm/pkg/postgresql/query_engine_bg.js".

Definition pg_wasm_path : string :=
  "/executor/src/../../../../query-engine/query-engine-wasm/pkg/postgresql/query_engine_bg.wasm".

(** A fresh process: nothing initialised, nothing logged; on disk, what the
    arguments say. *)
Definition fresh_world (modules : gmap string glue)
  (disk : gmap string (list Byte.byte)) : world :=
  {| initializedModules := ∅; module_map := modules; files := disk;
     glue_wasm := ∅; instances := 0; trace := [] |}.

Definition pg_world : world :=
  fresh_world {[ pg_specifier := pg_glue ]} {[ pg_wasm_path := [Byte.x00] ]}.

(** The same with a payload whose start export throws. *)
Definition pg_trapping_world : world :=
  fresh_world {[ pg_specifier := pg_glue ]} {[ pg_wasm_path := [Byte.x01] ]}.

(** The glue module is there, the payload is not. *)
Definition pg_missing_world : world :=
  fresh_world {[ pg_specifier := pg_glue ]} ∅.

Definition pg_bare_world : world :=
  fresh_world {[ pg_specifier := bare_glue ]} {[ pg_wasm_path := [Byte.x00] ]}.

(** A glue module without [__wbg_set_wasm], and modules that link with any
    glue module: one that starts, one without [__wbindgen_start]. *)
Definition mute_glue : glue := {| QueryEngine := object 9; __wbg_set_wasm := false |}.

Definition lenient_module : wasm_module :=
  {| links_with := fun _ => true; __wbindgen_start := start_returns |}.

Definition startless_module : wasm_module :=
  {| links_with := fun _ => true; __wbindgen_start := start_missing |}.

Definition lenient_compile (bytes : list Byte.byte) : option wasm_module :=
  match bytes with
  | Byte.x00 :: _ => Some lenient_module
  | Byte.x01 :: _ => Some startless_module
  | _ => None
  end.

(** The payload is there, the glue module is not. *)
Definition pg_unglued_world : world :=
  fresh_world ∅ {[ pg_wasm_path := [Byte.x00] ]}.

(** A payload that does not compile. *)
Definition pg_garbled_world : world :=
  fresh_world {[ pg_specifier := pg_glue ]} {[ pg_wasm_path := [Byte.x02] ]}.

Definition pg_mute_world : world :=
  fresh_world {[ pg_specifier := mute_glue ]} {[ pg_wasm_path := [Byte.x00] ]}.

Definition pg_startless_world : world :=
  fresh_world {[ pg_specifier := pg_glue ]} {[ pg_wasm_path := [Byte.x01] ]}.

(** [pg_garbled_world] after a call for ["postgresql"]. *)
Definition pg_garbled_failed : world :=
  log pg_garbled_world
    [("postgresql", Import pg_specifier); ("postgresql", ReadFile pg_wasm_path);
     ("postgresql", Compile)].

(** A second provider next to the first. *)
Definition mysql_glue : glue := {| QueryEngine := object 8; __wbg_set_wasm := true |}.

Definition mysql_specifier : string :=
  "../../../../query-engine/query-engine-wasm/pkg/mysql/query_engine_bg.js".

Definition mysql_wasm_path : string :=
  "/executor/src/../../../../query-engine/query-engine-wasm/pkg/mysql/query_engine_bg.wasm".

Definition pg_mysql_world : world :=
  fresh_world {[ pg_specifier := pg_glue; mysql_specifier := mysql_glue ]}
    {[ pg_wasm_path := [Byte.x00]; mysql_wasm_path := [Byte.x00] ]}.

(** The host of the examples, with the normaliser of the description, and
    the same with the normaliser that knows the alias. *)
Definition spec_host : host :=
  {| normaliseProvider := spec_normaliseProvider; __dirname := sample_dirname;
     path_resolve := sample_resolve; WebAssembly_Module := sample_compile |}.

Definition alias_host : host :=
  {| normaliseProvider := alias_normaliseProvider; __dirname := sample_dirname;
     path_resolve := sample_resolve; WebAssembly_Module := sample_compile |}.

Definition lenient_host : host :=
  {| normaliseProvider := spec_normaliseProvider; __dirname := sample_dirname;
     path_resolve := sample_resolve; WebAssembly_Module := lenient_compile |}.

(** [pg_world] after a first call for ["postgresql"]. *)
Definition pg_ready_world : world :=
  initialised "postgresql" pg_specifier pg_wasm_path pg_world.

(** ** Facts *)

(** *** Counting in a log *)

Lemma occurrences_nil kind provider : occurrences kind provider [] = 0.
Proof. reflexivity. Qed.

Lemma occurrences_app kind provider (t1 t2 : list event) :
  occurrences kind provider (t1 ++ t2)
  = occurrences kind provider t1 + occurrences kind provider t2.
Proof. unfold occurrences. by rewrite filter_app, length_app. Qed.

Lemma occurrences_hit kind provider a (t : list event) :
  kind a = true ->
  occurrences kind provider ((provider, a) :: t) = S (occurrences kind provider t).
Proof.
  intros Hk. unfold occurrences. rewrite filter_cons.
  destruct (decide _) as [|Hno]; [done|]. by destruct Hno.
Qed.

Lemma occurrences_miss kind provider q a (t : list event) :
  kind a = false ->
  occurrences kind provider ((q, a) :: t) = occurrences kind provider t.
Proof.
  intros Hk. unfold occurrences. rewrite filter_cons.
  destruct (decide _) as [[_ Hyes]|]; [|done]. cbn in Hyes. congruence.
Qed.

Lemma occurrences_other kind provider q (t : list event) :
  q <> provider ->
  Forall (fun e => e.1 = q) t ->
  occurrences kind provider t = 0.
Proof.
  intros Hne Ht. unfold occurrences.
  induction Ht as [|e t He _ IH]; [done|].
  rewrite filter_cons. destruct (decide _) as [[Heq _]|]; [congruence|done].
Qed.

Lemma occurrences_none kind provider (t : list event) :
  Forall (fun e => kind e.2 = false) t ->
  occurrences kind provider t = 0.
Proof.
  intros Ht. unfold occurrences.
  induction Ht as [|e t He _ IH]; [done|].
  rewrite filter_cons. destruct (decide _) as [[_ Hk]|]; [congruence|done].
Qed.

Lemma occurrences_elsewhere kind provider q a (t : list event) :
  q <> provider ->
  occurrences kind provider ((q, a) :: t) = occurrences kind provider t.
Proof.
  intros Hne. unfold occurrences. rewrite filter_cons.
  destruct (decide _) as [[Heq _]|]; [|done]. cbn in Heq. congruence.
Qed.

Ltac count_events :=
  rewrite ?occurrences_app;
  repeat first [ rewrite occurrences_hit by reflexivity
               | rewrite occurrences_miss by reflexivity
               | rewrite occurrences_nil ];
  try lia.

Section LoaderFacts.

Context {platform : host}.

Ltac unfold_loader :=
  unfold getQueryEngineForProvider, resume, run_segment, initialise, normalise,
    dynamic_import, fs_readFile, await, new_WebAssembly_Module,
    new_WebAssembly_Instance, call_set_wasm, call_start,
    initializedModules_has, initializedModules_add, emit, gets, modify, throw,
    mbind, M_bind, mret, M_ret, log, initialised, start_failed in *;
  cbn in *.

(** *** The function takes one of the ways *)

Ltac take_path ctor :=
  lazymatch goal with
  | |- loader_path ?p ?w ?c _ =>
      let H := fresh in
      eassert (H : loader_path p w c _) by (eapply ctor; eassumption);
      exact H
  end.

Lemma loader_paths provider w :
  loader_path provider w
    (getQueryEngineForProvider provider w).1 (getQueryEngineForProvider provider w).2.
Proof.
  destruct w as [ini mods fs bound made tr].
  destruct (normaliseProvider provider) as [n|] eqn:Hn.
  2:{ unfold_loader. rewrite Hn. cbn. by constructor. }
  destruct (mods !! glue_specifier n) as [g|] eqn:Hg.
  2:{ unfold_loader. rewrite Hn. cbn. rewrite Hg. cbn. take_path path_import_fails. }
  destruct (decide (provider ∈ ini)) as [Hin|Hin].
  { unfold_loader. rewrite Hn. cbn. rewrite Hg. cbn.
    rewrite bool_decide_eq_true_2 by done. cbn. take_path path_cached. }
  assert (Hguard : enters_guard provider n g
                     (Build_world ini mods fs bound made tr)) by done.
  unfold_loader. rewrite Hn. cbn. rewrite Hg. cbn.
  rewrite bool_decide_eq_false_2 by done. cbn.
  destruct (fs !! wasm_path n) as [bytes|] eqn:Hf; cbn.
  2:{ rewrite <- app_assoc. take_path path_read_fails. }
  destruct (WebAssembly_Module bytes) as [m|] eqn:Hc; cbn.
  2:{ rewrite <- !app_assoc. take_path path_compile_fails. }
  destruct (links_with m g) eqn:Hl; cbn.
  2:{ rewrite <- !app_assoc. take_path path_link_fails. }
  assert (Hinst : gets_instance provider n g m
                    (Build_world ini mods fs bound made tr)).
  { split; [done|]. by exists bytes. }
  destruct (__wbg_set_wasm g) eqn:Hb; cbn.
  2:{ rewrite <- !app_assoc. take_path path_set_wasm_missing. }
  destruct (__wbindgen_start m) eqn:Hs; cbn.
  - rewrite <- !app_assoc. take_path path_start_missing.
  - rewrite <- !app_assoc. take_path path_initialises.
  - rewrite <- !app_assoc. take_path path_start_throws.
Qed.

Lemma loader_inv provider w c w' :
  getQueryEngineForProvider provider w = (c, w') ->
  loader_path provider w c w'.
Proof. intros H. pose proof (loader_paths provider w) as Hp. by rewrite H in Hp. Qed.

Ltac open_guards :=
  unfold gets_instance, enters_guard in *;
  repeat match goal with
         | H : _ /\ _ |- _ => destruct H
         | H : exists _, _ |- _ => destruct H
         end.

(** The ways exclude one another: the one whose premises hold is the one
    the function takes. *)
Lemma loader_run provider w c w' :
  loader_path provider w c w' ->
  getQueryEngineForProvider provider w = (c, w').
Proof.
  intros Hp. pose proof (loader_paths provider w) as Hq.
  destruct (getQueryEngineForProvider provider w) as [c0 w0]. cbn in Hq.
  destruct Hp; destruct Hq; open_guards; simplify_eq; first [done | congruence].
Qed.

(** *** What no call changes, and what every call only extends *)

Lemma loader_grows provider w :
  initializedModules w ⊆ initializedModules (getQueryEngineForProvider provider w).2.
Proof.
  destruct (loader_paths provider w); cbn; set_solver.
Qed.


(** A call logs under its own provider only, and nothing of an
    initialisation when the provider is already marked. *)
Lemma loader_logs provider w :
  exists evs,
    trace (getQueryEngineForProvider provider w).2 = trace w ++ evs /\
    Forall (fun e => e.1 = provider) evs /\
    (provider ∈ initializedModules w ->
     Forall (fun e => is_init_action e.2 = false) evs).
Proof.
  destruct (loader_paths provider w); open_guards; cbn;
    try (eexists; split; [reflexivity|]; split;
         [by repeat constructor | intros; by repeat constructor || done]).
  exists []. rewrite app_nil_r. by repeat constructor.
Qed.

(** *** Calls one after the other *)

Lemma call_each_grows providers w :
  initializedModules w ⊆ initializedModules (call_each providers w).
Proof.
  revert w. induction providers as [|q rest IH]; intros w; cbn; [done|].
  etrans; [apply (loader_grows q w)|apply IH].
Qed.

(** Once a provider is marked, no later call does any step of an
    initialisation for it. *)
Lemma call_each_no_init provider providers w :
  provider ∈ initializedModules w ->
  exists evs,
    trace (call_each providers w) = trace w ++ evs /\
    occurrences is_init_action provider evs = 0.
Proof.
  revert w. induction providers as [|q rest IH]; intros w Hin; cbn.
  { exists []. by rewrite app_nil_r. }
  destruct (loader_logs q w) as (evs1 & Ht1 & Hq & Hcached).
  destruct (IH (getQueryEngineForProvider q w).2) as (evs2 & Ht2 & Hnone).
  { by apply (loader_grows q w). }
  exists (evs1 ++ evs2). split.
  { by rewrite Ht2, Ht1, app_assoc. }
  rewrite occurrences_app, Hnone.
  destruct (decide (q = provider)) as [->|Hne].
  - by rewrite occurrences_none by auto.
  - by rewrite (occurrences_other _ _ q).
Qed.

(** *** Calls in flight *)

(** Resumed three times without another call in between, a call is the
    function run in one go. *)
Lemma loader_as_schedule provider w :
  run_schedule [0; 0; 0] [Called provider] w
  = ([Settled (getQueryEngineForProvider provider w).1],
     (getQueryEngineForProvider provider w).2).
Proof.
  destruct w as [ini mods fs bound made tr].
  unfold run_schedule; cbn [lookup list_lookup insert list_insert].
  unfold_loader.
  destruct (normaliseProvider provider) as [n|]; cbn; [|done].
  destruct (mods !! glue_specifier n) as [g|]; cbn; [|done].
  destruct (bool_decide (provider ∈ ini)); cbn; [done|].
  destruct (fs !! wasm_path n) as [bytes|]; cbn; [|done].
  destruct (WebAssembly_Module bytes) as [m|]; cbn; [|done].
  destruct (links_with m g); cbn; [|done].
  destruct (__wbg_set_wasm g); cbn; [|done].
  by destruct (__wbindgen_start m).
Qed.

Lemma resume_called provider n w :
  normaliseProvider provider = Some n ->
  resume (Called provider) w
  = (AwaitImport provider n
       match module_map w !! glue_specifier n with
       | Some g => Return {| specifier := glue_specifier n; exports := g |}
       | None => Throw (ArtifactNotFoundError (glue_specifier n))
       end,
     log w [(provider, Import (glue_specifier n))]).
Proof. intros Hn. unfold_loader. by rewrite Hn. Qed.

Lemma resume_import_cached provider n engine w :
  provider ∈ initializedModules w ->
  resume (AwaitImport provider n (Return engine)) w
  = (Settled (Return (QueryEngine (exports engine))), w).
Proof. intros Hin. unfold_loader. by rewrite bool_decide_eq_true_2. Qed.

Lemma resume_import_fresh provider n engine w :
  provider ∉ initializedModules w ->
  resume (AwaitImport provider n (Return engine)) w
  = (AwaitReadFile provider n engine
       match files w !! wasm_path n with
       | Some bytes => Return bytes
       | None => Throw (ArtifactNotFoundError (wasm_path n))
       end,
     log w [(provider, ReadFile (wasm_path n))]).
Proof. intros Hin. unfold_loader. by rewrite bool_decide_eq_false_2. Qed.

(** Lines 28-35 do not look at [initializedModules] again: a call resumed
    with its payload initialises, marked provider or not. *)
Lemma resume_read provider n engine bytes m w :
  WebAssembly_Module bytes = Some m ->
  links_with m (exports engine) = true ->
  __wbg_set_wasm (exports engine) = true ->
  __wbindgen_start m = start_returns ->
  resume (AwaitReadFile provider n engine (Return bytes)) w
  = (Settled (Return (QueryEngine (exports engine))),
     linked provider (specifier engine) w).
Proof.
  intros Hc Hl Hb Hs. destruct w as [ini mods fs bound made tr].
  unfold_loader. rewrite Hc. cbn. rewrite Hl. cbn. rewrite Hb. cbn.
  rewrite Hs. cbn. unfold linked. cbn. by rewrite <- !app_assoc.
Qed.

Lemma resume_settled c w : resume (Settled c) w = (Settled c, w).
Proof. reflexivity. Qed.

Lemma resume_grows t w :
  initializedModules w ⊆ initializedModules (resume t w).2.
Proof.
  destruct t as [provider|provider n [engine|e]|provider n engine [bytes|e]|c];
    unfold_loader; try done.
  - by destruct (normaliseProvider provider).
  - by destruct (bool_decide (provider ∈ initializedModules w)).
  - destruct (WebAssembly_Module bytes) as [m|]; cbn; [|done].
    destruct (links_with m (exports engine)); cbn; [|done].
    destruct (__wbg_set_wasm (exports engine)); cbn; [|done].
    destruct (__wbindgen_start m); cbn; set_solver.
Qed.

Lemma run_schedule_grows schedule pool w :
  initializedModules w ⊆ initializedModules (run_schedule schedule pool w).2.
Proof.
  revert pool w. induction schedule as [|i rest IH]; intros pool w; cbn; [done|].
  destruct (pool !! i) as [t|]; [|apply IH].
  pose proof (resume_grows t w) as Hstep.
  destruct (resume t w) as [t' w']. etrans; [exact Hstep|apply IH].
Qed.

Lemma run_schedule_turn i rest pool w t t' w' :
  pool !! i = Some t ->
  resume t w = (t', w') ->
  run_schedule (i :: rest) pool w = run_schedule rest (<[i := t']> pool) w'.
Proof. intros Hi Ht. cbn. by rewrite Hi, Ht. Qed.

(** *** Properties of the loader *)

(** C4. An identifier that [normaliseProvider] rejects makes the call fail
    with a [ConfigurationError] at line 13, before the [import()] of line 14
    and the [fs.readFile] of line 19: the world, its log included, is left
    as it was. *)
Theorem unsupported_provider_fails_before_io provider w :
  normaliseProvider provider = None ->
  getQueryEngineForProvider provider w = (Throw (ConfigurationError provider), w) /\
  resume (Called provider) w = (Settled (Throw (ConfigurationError provider)), w).
Proof.
  intros Hn. split.
  - apply loader_run. by constructor.
  - unfold_loader. by rewrite Hn.
Qed.

(** C1. When a call for a provider returns a handle, the next call for it
    returns the same handle; it only resolves the glue module again and does
    no step of an initialisation. Over the two calls the payload is read,
    compiled, instantiated, bound and started at most once, and no later
    call, for whatever providers, does any of it again for this one. *)
Theorem second_call_returns_same_handle provider w handle w1 :
  getQueryEngineForProvider provider w = (Return handle, w1) ->
  exists n g w2 first second,
    normaliseProvider provider = Some n /\
    module_map w !! glue_specifier n = Some g /\
    handle = QueryEngine g /\
    getQueryEngineForProvider provider w1 = (Return handle, w2) /\
    trace w1 = trace w ++ first /\
    trace w2 = trace w1 ++ second /\
    occurrences is_init_action provider second = 0 /\
    occurrences is_read provider (first ++ second) <= 1 /\
    occurrences is_compile provider (first ++ second) <= 1 /\
    occurrences is_instantiate provider (first ++ second) <= 1 /\
    occurrences is_set_wasm provider (first ++ second) <= 1 /\
    occurrences is_start provider (first ++ second) <= 1 /\
    forall later, exists evs,
      trace (call_each later w1) = trace w1 ++ evs /\
      occurrences is_init_action provider evs = 0.
Proof.
  intros Hrun. apply loader_inv in Hrun.
  inversion Hrun as [| |n g Hn Hg Hin| | | | | | |n g m Hinst Hb Hs]; subst.
  - exists n, g. eexists _, _, _. do 3 (split; [done|]). split.
    { apply loader_run. by eapply path_cached. }
    cbn. repeat split; try reflexivity; count_events.
    intros later. by apply call_each_no_init.
  - open_guards. exists n, g. eexists _, _, _. do 3 (split; [done|]). split.
    { apply loader_run. eapply path_cached; cbn; [done|done|set_solver]. }
    cbn. repeat split; try reflexivity; count_events.
    intros later. apply call_each_no_init. cbn. set_solver.
Qed.

(** C6. A first initialisation that goes through does, in this order and
    each once: resolve the glue module, read the payload, compile it,
    instantiate the module with the glue module as its import namespace,
    pass the new instance's export table to the glue module's
    [__wbg_set_wasm], call [__wbindgen_start], and only then add the provider
    to [initializedModules]. *)
Theorem first_initialisation_order provider w handle w1 :
  provider ∉ initializedModules w ->
  getQueryEngineForProvider provider w = (Return handle, w1) ->
  exists n g m,
    gets_instance provider n g m w /\
    __wbindgen_start m = start_returns /\
    handle = QueryEngine g /\
    trace w1 = trace w ++ [(provider, Import (glue_specifier n));
                           (provider, ReadFile (wasm_path n));
                           (provider, Compile);
                           (provider, Instantiate (glue_specifier n));
                           (provider, SetWasm (glue_specifier n) (instances w));
                           (provider, Start (instances w));
                           (provider, Mark)] /\
    instances w1 = S (instances w) /\
    glue_wasm w1 !! glue_specifier n = Some (instances w) /\
    initializedModules w1 = {[provider]} ∪ initializedModules w.
Proof.
  intros Hfresh Hrun. apply loader_inv in Hrun.
  inversion Hrun as [| |n g Hn Hg Hin| | | | | | |n g m Hinst Hb Hs]; subst; [done|].
  exists n, g, m. cbn. split_and!; try done. by rewrite lookup_insert_eq.
Qed.

(** C2. When [__wbindgen_start] throws, the call fails with
    [ModuleInitError] and [initializedModules] is as before, without the
    provider. A later call, whatever is on disk by then, goes through the
    guard again and reads the payload anew; it marks the provider only as
    the last step of an initialisation in which the instance was made and
    its start export returned, and it does so whenever the payload on disk
    then compiles, links and starts. *)
Theorem start_failure_is_not_marked provider n g m w :
  gets_instance provider n g m w ->
  __wbg_set_wasm g = true ->
  __wbindgen_start m = start_throws ->
  exists w',
    getQueryEngineForProvider provider w = (Throw ModuleInitError, w') /\
    initializedModules w' = initializedModules w /\
    (provider ∉ initializedModules w') /\
    forall disk,
      (forall c w2,
         getQueryEngineForProvider provider (set_files disk w') = (c, w2) ->
         (exists rest,
            trace w2 = trace w' ++ (provider, Import (glue_specifier n))
                                :: (provider, ReadFile (wasm_path n)) :: rest) /\
         (provider ∈ initializedModules w2 ->
          exists m2,
            gets_instance provider n g m2 (set_files disk w') /\
            __wbindgen_start m2 = start_returns /\
            c = Return (QueryEngine g) /\
            w2 = initialised provider (glue_specifier n) (wasm_path n)
                   (set_files disk w'))) /\
      (forall bytes m2,
         disk !! wasm_path n = Some bytes ->
         WebAssembly_Module bytes = Some m2 ->
         links_with m2 g = true ->
         __wbindgen_start m2 = start_returns ->
         getQueryEngineForProvider provider (set_files disk w')
         = (Return (QueryEngine g),
            initialised provider (glue_specifier n) (wasm_path n)
              (set_files disk w'))).
Proof.
  intros Hinst Hb Hs. eexists. split.
  { apply loader_run. by eapply path_start_throws. }
  pose proof Hinst as Hinst'. open_guards. cbn. split_and!; [done..|].
  intros disk. split.
  - intros c w2 Hrun. apply loader_inv in Hrun.
    inversion Hrun; subst; open_guards; cbn in *; simplify_eq; try done;
      (split; [eexists; rewrite <- ?app_assoc; reflexivity|]);
      intros Hin; try done.
    eexists. split; [split; [done|eexists; done]|done].
  - intros bytes m2 Hf Hc Hl Hs2. apply loader_run.
    eapply path_initialises; [|done..].
    split; [done|]. by exists bytes.
Qed.

(** C5. When the payload of a supported, unmarked provider is not on disk,
    the call fails with an [ArtifactNotFoundError] that carries the path it
    tried, and the provider stays unmarked; once a payload that compiles,
    links and starts is at that path, the next call returns the handle and
    marks the provider. *)
Theorem missing_artifact_is_not_marked provider n g w :
  enters_guard provider n g w ->
  files w !! wasm_path n = None ->
  exists w',
    getQueryEngineForProvider provider w
    = (Throw (ArtifactNotFoundError (wasm_path n)), w') /\
    initializedModules w' = initializedModules w /\
    (provider ∉ initializedModules w') /\
    forall bytes m,
      WebAssembly_Module bytes = Some m ->
      links_with m g = true ->
      __wbg_set_wasm g = true ->
      __wbindgen_start m = start_returns ->
      exists w2,
        getQueryEngineForProvider provider
          (set_files (<[wasm_path n := bytes]> (files w')) w')
        = (Return (QueryEngine g), w2) /\
        provider ∈ initializedModules w2.
Proof.
  intros Hguard Hf. eexists. split.
  { apply loader_run. by eapply path_read_fails. }
  pose proof Hguard as Hguard'. open_guards. cbn. split_and!; [done..|].
  intros bytes m Hc Hl Hb Hs. eexists. split.
  - apply loader_run. eapply path_initialises; [|done..].
    split; [done|]. exists bytes. cbn. by rewrite lookup_insert_eq.
  - cbn. set_solver.
Qed.

(** C8. The guard of line 18 looks up the raw provider, the paths of lines
    15 and 20-25 use the normalised one. Two different raw providers with
    the same normalised name are therefore initialised one after the other
    from the same glue module and the same payload file: two compiles, two
    instances, two starts. *)
Theorem same_segment_initialised_per_raw_provider p1 p2 n w handle w1 :
  p1 <> p2 ->
  normaliseProvider p1 = Some n ->
  normaliseProvider p2 = Some n ->
  p1 ∉ initializedModules w ->
  p2 ∉ initializedModules w ->
  getQueryEngineForProvider p1 w = (Return handle, w1) ->
  exists w2,
    getQueryEngineForProvider p2 w1 = (Return handle, w2) /\
    trace w2 = trace w ++ [(p1, Import (glue_specifier n));
                           (p1, ReadFile (wasm_path n));
                           (p1, Compile);
                           (p1, Instantiate (glue_specifier n));
                           (p1, SetWasm (glue_specifier n) (instances w));
                           (p1, Start (instances w));
                           (p1, Mark);
                           (p2, Import (glue_specifier n));
                           (p2, ReadFile (wasm_path n));
                           (p2, Compile);
                           (p2, Instantiate (glue_specifier n));
                           (p2, SetWasm (glue_specifier n) (S (instances w)));
                           (p2, Start (S (instances w)));
                           (p2, Mark)] /\
    instances w2 = S (S (instances w)) /\
    initializedModules w2 = {[p2]} ∪ ({[p1]} ∪ initializedModules w).
Proof.
  intros Hne Hn1 Hn2 Hf1 Hf2 Hrun. apply loader_inv in Hrun.
  inversion Hrun as [| |? ? ? ? Hin| | | | | | |n' g m Hinst Hb Hs]; subst; [done|].
  open_guards. simplify_eq. eexists. split.
  { apply loader_run. eapply path_initialises; [|done..].
    split; [split; [done|split; cbn; [done|]]|].
    { rewrite elem_of_union, elem_of_singleton. by intros [|]. }
    eexists; cbn; done. }
  cbn. split_and!; [|done..]. by rewrite <- app_assoc.
Qed.

(** Every call keeps [world_wf]. *)
Lemma loader_wf provider w :
  world_wf w -> world_wf (getQueryEngineForProvider provider w).2.
Proof.
  intros Hwf spec i.
  destruct (loader_paths provider w) as
    [| | | | | |? ? ? ? ?|? ? ? ? ? ?|? ? ? ? ? ?|? ? ? ? ? ?]; cbn;
    try apply Hwf; intros Hl;
    try (rewrite lookup_insert in Hl; case_decide; simplify_eq; [lia|]);
    apply Hwf in Hl; lia.
Qed.

(** C9. When [__wbindgen_start] throws, [initializedModules] is as before,
    but the glue module has already been given the export table of the new
    instance by the [__wbg_set_wasm] call of line 33: its binding differs
    from the one it had before the call, although the call fails. *)
Theorem start_failure_leaves_glue_bound provider n g m w :
  gets_instance provider n g m w ->
  __wbg_set_wasm g = true ->
  __wbindgen_start m = start_throws ->
  world_wf w ->
  exists w' before,
    getQueryEngineForProvider provider w = (Throw ModuleInitError, w') /\
    initializedModules w' = initializedModules w /\
    glue_wasm w' !! glue_specifier n = Some (instances w) /\
    glue_wasm w' !! glue_specifier n <> glue_wasm w !! glue_specifier n /\
    trace w' = trace w ++ before
                 ++ [(provider, SetWasm (glue_specifier n) (instances w));
                     (provider, Start (instances w))].
Proof.
  intros Hinst Hb Hs Hwf. eexists. eexists [_; _; _; _]. split.
  { apply loader_run. by eapply path_start_throws. }
  cbn. rewrite lookup_insert_eq. split_and!; try done.
  intros Heq. symmetry in Heq. apply Hwf in Heq. lia.
Qed.

(** C10. Line 38 returns [engine.QueryEngine] as it is. With a glue module
    that has no such export the call, cached or freshly initialised, returns
    [undefined] and does not fail. *)
Theorem missing_export_returns_undefined provider n g w :
  normaliseProvider provider = Some n ->
  module_map w !! glue_specifier n = Some g ->
  QueryEngine g = undefined ->
  provider ∈ initializedModules w \/
  (exists m, gets_instance provider n g m w /\
             __wbg_set_wasm g = true /\ __wbindgen_start m = start_returns) ->
  exists w',
    getQueryEngineForProvider provider w = (Return undefined, w') /\
    provider ∈ initializedModules w'.
Proof.
  intros Hn Hg Hq [Hin|(m & Hinst & Hb & Hs)]; rewrite <- Hq; eexists; split.
  - apply loader_run. by eapply path_cached.
  - done.
  - apply loader_run. by eapply path_initialises.
  - cbn. set_solver.
Qed.

(** C7. [initializedModules] only grows, over calls made one after the
    other and over calls resumed in any order; and a call adds nothing but
    its own provider, after the instance has been made, bound and started,
    as the last step of a call that returns the handle. *)
Theorem initializedModules_only_grows :
  (forall providers w,
     initializedModules w ⊆ initializedModules (call_each providers w)) /\
  (forall schedule pool w,
     initializedModules w ⊆ initializedModules (run_schedule schedule pool w).2) /\
  (forall provider w q,
     q ∈ initializedModules (getQueryEngineForProvider provider w).2 ->
     q ∉ initializedModules w ->
     q = provider /\
     exists n g m,
       gets_instance provider n g m w /\
       __wbg_set_wasm g = true /\
       __wbindgen_start m = start_returns /\
       getQueryEngineForProvider provider w
       = (Return (QueryEngine g),
          initialised provider (glue_specifier n) (wasm_path n) w)).
Proof.
  split_and!.
  - apply call_each_grows.
  - apply run_schedule_grows.
  - intros provider w q Hin Hout.
    destruct (getQueryEngineForProvider provider w) as [c w'] eqn:Hrun. cbn in Hin.
    apply loader_inv in Hrun.
    inversion Hrun as [| | | | | | | | |n g m Hinst Hb Hs]; subst;
      cbn in Hin; try done.
    apply elem_of_union in Hin as [Hin%elem_of_singleton|Hin]; [|done].
    split; [done|]. by exists n, g, m.
Qed.

Ltac run_turn Hg Hf :=
  erewrite run_schedule_turn;
  [ | reflexivity
    | first [ apply resume_settled
            | apply resume_called; eassumption
            | apply resume_import_cached; cbn; set_solver
            | apply resume_import_fresh; cbn; assumption
            | eapply resume_read; cbn; eassumption ] ];
  cbn [insert list_insert module_map files log set_trace linked];
  rewrite ?Hg, ?Hf.

(** C3, as the code has it. Two requests for the same unmarked provider,
    whose payload compiles, links and starts, are resumed in any of the
    twenty orders of their turns. Both return the handle. When both have
    evaluated the guard of line 18 before either has run lines 28-35, each
    reads, compiles, instantiates and starts on its own; otherwise, when one
    request has marked the provider before the other is resumed from its
    [await import], there is one initialisation. *)
Theorem two_requests_in_flight provider n g m w schedule :
  gets_instance provider n g m w ->
  __wbg_set_wasm g = true ->
  __wbindgen_start m = start_returns ->
  schedule ∈ interleavings [0; 0; 0] [1; 1; 1] ->
  exists w2 evs,
    run_schedule schedule [Called provider; Called provider] w
    = ([Settled (Return (QueryEngine g)); Settled (Return (QueryEngine g))], w2) /\
    trace w2 = trace w ++ evs /\
    occurrences is_read provider evs = (if overlaps schedule then 2 else 1) /\
    occurrences is_compile provider evs = (if overlaps schedule then 2 else 1) /\
    occurrences is_instantiate provider evs = (if overlaps schedule then 2 else 1) /\
    occurrences is_start provider evs = (if overlaps schedule then 2 else 1) /\
    (at_most_one_initialisation provider evs <-> overlaps schedule = false).
Proof.
  intros ((Hn & Hg & Hfresh) & bytes & Hf & Hc & Hl) Hb Hs Hsched.
  set (all := interleavings _ _) in Hsched. vm_compute in all. subst all.
  repeat (apply elem_of_cons in Hsched as [->|Hsched]);
    [..|by apply elem_of_nil in Hsched].
  all: eexists _, _; split;
    [ do 6 run_turn Hg Hf; reflexivity | ].
  all: split; [cbn; rewrite <- ?app_assoc; reflexivity|].
  all: unfold at_most_one_initialisation.
  all: match goal with
       | |- context [overlaps ?s] =>
           let b := eval vm_compute in (overlaps s) in
           change (overlaps s) with b
       end.
  all: cbn [app]; count_events.
  all: split_and!; try reflexivity; split; (lia || done).
Qed.

(** *** Further properties: the failing ways *)


(** A call that throws, at whichever line, adds nothing to
    [initializedModules]: the [add] of line 35 is behind every statement
    that can throw. Its log has no [Mark]. *)
Theorem failed_call_marks_nothing provider w e w' :
  getQueryEngineForProvider provider w = (Throw e, w') ->
  initializedModules w' = initializedModules w /\
  exists evs,
    trace w' = trace w ++ evs /\
    forall q, occurrences is_mark q evs = 0.
Proof.
  intros Hrun. apply loader_inv in Hrun.
  inversion Hrun; subst; cbn; (split; [done|]);
    try (eexists; split; [reflexivity|]; intros q; by count_events).
  exists []. by rewrite app_nil_r.
Qed.

(** When the glue module does not resolve, the call fails with the
    specifier that [import()] was given, before the guard of line 18 is
    looked at: marked or not, nothing is read from disk and nothing but the
    log changes. *)
Theorem missing_glue_module_fails_before_guard provider n w :
  normaliseProvider provider = Some n ->
  module_map w !! glue_specifier n = None ->
  exists w',
    getQueryEngineForProvider provider w
    = (Throw (ArtifactNotFoundError (glue_specifier n)), w') /\
    trace w' = trace w ++ [(provider, Import (glue_specifier n))] /\
    initializedModules w' = initializedModules w /\
    instances w' = instances w /\
    glue_wasm w' = glue_wasm w.
Proof.
  intros Hn Hg. eexists. split.
  { apply loader_run. by eapply path_import_fails. }
  done.
Qed.

(** A payload that [new WebAssembly.Module] or [new WebAssembly.Instance]
    rejects makes the call fail with [ModuleLinkError] at line 28 or 29: no
    instance is made, the glue module is not touched, [__wbindgen_start] is
    not called and the provider stays unmarked. *)
Theorem rejected_payload_makes_no_instance provider n g bytes w :
  enters_guard provider n g w ->
  files w !! wasm_path n = Some bytes ->
  WebAssembly_Module bytes = None \/
  (exists m, WebAssembly_Module bytes = Some m /\ links_with m g = false) ->
  exists w' evs,
    getQueryEngineForProvider provider w = (Throw ModuleLinkError, w') /\
    initializedModules w' = initializedModules w /\
    instances w' = instances w /\
    glue_wasm w' = glue_wasm w /\
    trace w' = trace w ++ evs /\
    occurrences is_set_wasm provider evs = 0 /\
    occurrences is_start provider evs = 0.
Proof.
  intros Hguard Hf [Hc|(m & Hc & Hl)]; eexists; eexists; split.
  - apply loader_run. by eapply path_compile_fails.
  - cbn. split_and!; try reflexivity; by count_events.
  - apply loader_run. by eapply path_link_fails.
  - cbn. split_and!; try reflexivity; by count_events.
Qed.

(** When the glue module has no [__wbg_set_wasm], line 33 throws a
    [TypeError] after the instance of line 29 has been made: the instance
    count goes up, the glue module holds what it held, [__wbindgen_start] is
    not called and the provider stays unmarked. *)
Theorem missing_set_wasm_throws_after_instantiation provider n g m w :
  gets_instance provider n g m w ->
  __wbg_set_wasm g = false ->
  exists w' evs,
    getQueryEngineForProvider provider w = (Throw TypeError, w') /\
    instances w' = S (instances w) /\
    glue_wasm w' = glue_wasm w /\
    initializedModules w' = initializedModules w /\
    trace w' = trace w ++ evs /\
    occurrences is_instantiate provider evs = 1 /\
    occurrences is_start provider evs = 0.
Proof.
  intros Hinst Hb. eexists; eexists; split.
  { apply loader_run. by eapply path_set_wasm_missing. }
  cbn. split_and!; try reflexivity; by count_events.
Qed.

(** Line 32 reads [instance.exports.__wbindgen_start] without looking at
    it, line 33 binds, line 34 calls: a payload without that export makes
    the call throw a [TypeError] only after the glue module has been given
    the new instance's export table; the provider stays unmarked. *)
Theorem missing_start_export_throws_after_binding provider n g m w :
  gets_instance provider n g m w ->
  __wbg_set_wasm g = true ->
  __wbindgen_start m = start_missing ->
  exists w' evs,
    getQueryEngineForProvider provider w = (Throw TypeError, w') /\
    glue_wasm w' !! glue_specifier n = Some (instances w) /\
    instances w' = S (instances w) /\
    initializedModules w' = initializedModules w /\
    trace w' = trace w ++ evs /\
    occurrences is_set_wasm provider evs = 1 /\
    occurrences is_start provider evs = 0.
Proof.
  intros Hinst Hb Hs. eexists; eexists; split.
  { apply loader_run. by eapply path_start_missing. }
  cbn. rewrite lookup_insert_eq.
  split_and!; try reflexivity; by count_events.
Qed.


(** *** Further properties: the cache *)

(** A call for a marked provider does not depend on the payload file: with
    anything or nothing on disk it returns the glue module's [QueryEngine],
    makes no instance and leaves the glue module's binding alone. *)
Theorem marked_provider_needs_no_payload provider n g w disk :
  normaliseProvider provider = Some n ->
  module_map w !! glue_specifier n = Some g ->
  provider ∈ initializedModules w ->
  exists w',
    getQueryEngineForProvider provider (set_files disk w)
    = (Return (QueryEngine g), w') /\
    trace w' = trace w ++ [(provider, Import (glue_specifier n))] /\
    initializedModules w' = initializedModules w /\
    instances w' = instances w /\
    glue_wasm w' = glue_wasm w.
Proof.
  intros Hn Hg Hin. eexists. split.
  { apply loader_run. by eapply path_cached. }
  done.
Qed.

(** The handle depends on the normalised provider only: two calls that
    return, for providers with the same normalised name and with the same
    modules on disk, return the same handle, whatever has been initialised
    in either world. *)
Theorem handle_depends_on_segment_only p1 p2 n w1 w2 h1 h2 w1' w2' :
  normaliseProvider p1 = Some n ->
  normaliseProvider p2 = Some n ->
  module_map w1 = module_map w2 ->
  getQueryEngineForProvider p1 w1 = (Return h1, w1') ->
  getQueryEngineForProvider p2 w2 = (Return h2, w2') ->
  h1 = h2.
Proof.
  intros Hn1 Hn2 Hmods Hrun1 Hrun2.
  apply loader_inv in Hrun1. apply loader_inv in Hrun2.
  inversion Hrun1; inversion Hrun2; subst; open_guards; congruence.
Qed.

(** A call changes the mark of no provider but its own, and logs nothing
    under another provider's name. *)
Theorem other_providers_untouched provider q w :
  q <> provider ->
  (q ∈ initializedModules (getQueryEngineForProvider provider w).2
   <-> q ∈ initializedModules w) /\
  exists evs,
    trace (getQueryEngineForProvider provider w).2 = trace w ++ evs /\
    forall kind, occurrences kind q evs = 0.
Proof.
  intros Hne. split.
  - destruct (loader_paths provider w); cbn; try done.
    rewrite elem_of_union, elem_of_singleton. split; [by intros [?|?]|by right].
  - destruct (loader_logs provider w) as (evs & Htrace & Htag & _).
    exists evs. split; [done|]. intros kind.
    by apply (occurrences_other _ _ provider).
Qed.

(** *** Further properties: calls one after the other *)

Lemma loader_keeps_bound provider w :
  initialised_are_bound w ->
  initialised_are_bound (getQueryEngineForProvider provider w).2.
Proof.
  intros Hinv q nq.
  destruct (loader_paths provider w) as
    [| | | | | |n g m Hi ?|n g m Hi ? ?|n g m Hi ? ?|n g m Hi ? ?]; cbn;
    intros Hq Hnq;
    try (by apply (Hinv q nq)).
  - destruct (Hinv q nq Hq Hnq) as (i & Hl & Hlt). exists i. split; [done|lia].
  - rewrite lookup_insert. case_decide; [eexists; split; [done|lia]|].
    destruct (Hinv q nq Hq Hnq) as (i & Hl & Hlt). exists i. split; [done|lia].
  - rewrite lookup_insert. case_decide; [eexists; split; [done|lia]|].
    destruct (Hinv q nq Hq Hnq) as (i & Hl & Hlt). exists i. split; [done|lia].
  - rewrite lookup_insert. case_decide; [eexists; split; [done|lia]|].
    apply elem_of_union in Hq as [Hq%elem_of_singleton|Hq].
    + subst q. destruct Hi as ((Hn & _) & _). congruence.
    + destruct (Hinv q nq Hq Hnq) as (i & Hl & Hlt). exists i. split; [done|lia].
Qed.

Lemma call_each_keeps_bound providers w :
  initialised_are_bound w -> initialised_are_bound (call_each providers w).
Proof.
  revert w. induction providers as [|q rest IH]; intros w Hinv; cbn; [done|].
  by apply IH, loader_keeps_bound.
Qed.

(** In a process whose calls are made one after the other, a call that
    returns a handle returns it for a marked provider whose glue module
    holds the export table of an instance that has been made: no handle
    comes out of a glue module that was never bound. *)
Theorem returned_handle_is_bound modules disk earlier provider handle w' :
  getQueryEngineForProvider provider (call_each earlier (fresh_world modules disk))
  = (Return handle, w') ->
  provider ∈ initializedModules w' /\
  exists n i,
    normaliseProvider provider = Some n /\
    glue_wasm w' !! glue_specifier n = Some i /\
    i < instances w'.
Proof.
  intros Hrun.
  assert (Hinv : initialised_are_bound w').
  { change w' with (Return handle, w').2. rewrite <- Hrun.
    apply loader_keeps_bound, call_each_keeps_bound.
    intros q nq Hq. cbn in Hq. by apply not_elem_of_empty in Hq. }
  apply loader_inv in Hrun.
  assert (Hin : provider ∈ initializedModules w' /\
                exists n, normaliseProvider provider = Some n).
  { inversion Hrun; subst; open_guards; cbn; split; eauto.
    by apply elem_of_union_l, elem_of_singleton. }
  destruct Hin as (Hin & n & Hn). split; [done|].
  destruct (Hinv provider n Hin Hn) as (i & Hl & Hlt). by exists n, i.
Qed.

(** One call logs a [Mark] for a provider exactly when it adds it. *)
Lemma loader_marks provider w :
  exists evs,
    trace (getQueryEngineForProvider provider w).2 = trace w ++ evs /\
    forall q,
      occurrences is_mark q evs
      = if decide (q ∈ initializedModules (getQueryEngineForProvider provider w).2
                   /\ q ∉ initializedModules w)
        then 1 else 0.
Proof.
  destruct (loader_paths provider w) as
    [| | | | | | | | |n g m ((_ & _ & Hfresh) & _) _ _]; cbn;
    try (eexists; split; [reflexivity|]; intros q; count_events;
         case_decide as Hd; [by destruct Hd|done]).
  - exists []. split; [by rewrite app_nil_r|]. intros q.
    case_decide as Hd; [by destruct Hd|done].
  - eexists; split; [reflexivity|]. intros q. count_events.
    destruct (decide (q = provider)) as [->|Hne].
    + count_events. case_decide as Hd; [done|]. destruct Hd.
      split; [by apply elem_of_union_l, elem_of_singleton|done].
    + rewrite occurrences_elsewhere by done. count_events.
      case_decide as Hd; [|done]. destruct Hd as [Hd Hout].
      apply elem_of_union in Hd as [Hd%elem_of_singleton|Hd]; congruence.
Qed.

(** Over calls made one after the other, failed ones included, a provider
    is marked at most once: the log has one [Mark] for each provider the
    calls added to [initializedModules], and none for any other. *)
Theorem marked_once_in_sequence providers w :
  exists evs,
    trace (call_each providers w) = trace w ++ evs /\
    forall q,
      occurrences is_mark q evs
      = if decide (q ∈ initializedModules (call_each providers w)
                   /\ q ∉ initializedModules w)
        then 1 else 0.
Proof.
  revert w. induction providers as [|p rest IH]; intros w; cbn.
  { exists []. split; [by rewrite app_nil_r|]. intros q.
    case_decide as Hd; [by destruct Hd|done]. }
  destruct (loader_marks p w) as (evs1 & Ht1 & Hm1).
  destruct (IH (getQueryEngineForProvider p w).2) as (evs2 & Ht2 & Hm2).
  exists (evs1 ++ evs2). split; [by rewrite Ht2, Ht1, app_assoc|].
  intros q. rewrite occurrences_app, Hm1, Hm2.
  pose proof (loader_grows p w) as Hg1.
  pose proof (call_each_grows rest (getQueryEngineForProvider p w).2) as Hg2.
  repeat case_decide; try done;
    repeat match goal with
           | H : _ /\ _ |- _ => destruct H
           | H : ~ (_ /\ _) |- _ => apply not_and_l in H as [H|H%dec_stable]
           end;
    set_solver.
Qed.

(** *** Further properties: calls in flight *)

(** Two requests for the same unmarked provider that both pass the guard
    before either initialises make two instances and mark twice; the glue
    module ends up holding the export table of the second instance, and the
    first instance's is dropped. In the other orders there is one instance
    and the glue module holds its table. *)
Theorem overlapping_requests_rebind_the_glue provider n g m w schedule :
  gets_instance provider n g m w ->
  __wbg_set_wasm g = true ->
  __wbindgen_start m = start_returns ->
  schedule ∈ interleavings [0; 0; 0] [1; 1; 1] ->
  exists pool w2 evs,
    run_schedule schedule [Called provider; Called provider] w = (pool, w2) /\
    trace w2 = trace w ++ evs /\
    instances w2
    = (if overlaps schedule then S (S (instances w)) else S (instances w)) /\
    glue_wasm w2 !! glue_specifier n
    = Some (if overlaps schedule then S (instances w) else instances w) /\
    occurrences is_mark provider evs = (if overlaps schedule then 2 else 1) /\
    initializedModules w2 = {[provider]} ∪ initializedModules w.
Proof.
  intros ((Hn & Hg & Hfresh) & bytes & Hf & Hc & Hl) Hb Hs Hsched.
  set (all := interleavings _ _) in Hsched. vm_compute in all. subst all.
  repeat (apply elem_of_cons in Hsched as [->|Hsched]);
    [..|by apply elem_of_nil in Hsched].
  all: eexists _, _, _; split;
    [ do 6 run_turn Hg Hf; reflexivity | ].
  all: split; [cbn; rewrite <- ?app_assoc; reflexivity|].
  all: match goal with
       | |- context [overlaps ?s] =>
           let b := eval vm_compute in (overlaps s) in
           change (overlaps s) with b
       end.
  all: cbn [app instances glue_wasm initializedModules linked log set_trace].
  all: rewrite ?lookup_insert_eq; count_events.
  all: split_and!; try reflexivity.
  all: by rewrite (assoc_L (∪)), union_idemp_L.
Qed.

Ltac decide_mark :=
  cbn [initializedModules linked log set_trace];
  rewrite ?elem_of_union, ?elem_of_singleton;
  first [ assumption | tauto | intuition congruence ].

Ltac run_turn_of Hgp Hgq Hfp Hfq :=
  erewrite run_schedule_turn;
  [ | reflexivity
    | first [ apply resume_settled
            | apply resume_called; eassumption
            | apply resume_import_cached; decide_mark
            | apply resume_import_fresh; decide_mark
            | eapply resume_read; cbn; eassumption ] ];
  cbn [insert list_insert module_map files log set_trace linked];
  rewrite ?Hgp, ?Hgq, ?Hfp, ?Hfq.

(** Requests for two different providers do not get in each other's way:
    resumed in any of the twenty orders of their turns, each returns its own
    handle after one compile, one start and one mark of its own. *)
Theorem distinct_providers_in_flight p q np nq gp gq mp mq w schedule :
  p <> q ->
  gets_instance p np gp mp w ->
  __wbg_set_wasm gp = true ->
  __wbindgen_start mp = start_returns ->
  gets_instance q nq gq mq w ->
  __wbg_set_wasm gq = true ->
  __wbindgen_start mq = start_returns ->
  schedule ∈ interleavings [0; 0; 0] [1; 1; 1] ->
  exists w2 evs,
    run_schedule schedule [Called p; Called q] w
    = ([Settled (Return (QueryEngine gp)); Settled (Return (QueryEngine gq))], w2) /\
    trace w2 = trace w ++ evs /\
    occurrences is_compile p evs = 1 /\
    occurrences is_compile q evs = 1 /\
    occurrences is_start p evs = 1 /\
    occurrences is_start q evs = 1 /\
    occurrences is_mark p evs = 1 /\
    occurrences is_mark q evs = 1 /\
    instances w2 = S (S (instances w)) /\
    forall r, r ∈ initializedModules w2 <-> r = p \/ r = q \/ r ∈ initializedModules w.
Proof.
  intros Hne ((Hnp & Hgp & Hp) & bp & Hfp & Hcp & Hlp) Hbp Hsp
    ((Hnq & Hgq & Hq) & bq & Hfq & Hcq & Hlq) Hbq Hsq Hsched.
  assert (Hne' : q <> p) by congruence.
  set (all := interleavings _ _) in Hsched. vm_compute in all. subst all.
  repeat (apply elem_of_cons in Hsched as [->|Hsched]);
    [..|by apply elem_of_nil in Hsched].
  all: eexists _, _; split;
    [ do 6 run_turn_of Hgp Hgq Hfp Hfq; reflexivity | ].
  all: split; [cbn; rewrite <- ?app_assoc; reflexivity|].
  all: cbn [app instances initializedModules linked log set_trace].
  all: repeat first [ rewrite occurrences_hit by reflexivity
                    | rewrite occurrences_miss by reflexivity
                    | rewrite occurrences_elsewhere by assumption
                    | rewrite occurrences_nil ].
  all: split_and!; try reflexivity.
  all: intros r; rewrite !elem_of_union, !elem_of_singleton; tauto.
Qed.

End LoaderFacts.

(** ** The properties on the concrete host *)

(** Unless said otherwise, the host is [spec_host]. *)
#[local] Existing Instance spec_host.

Lemma pg_gets_instance (m : wasm_module) (b : Byte.byte) :
  sample_compile [b] = Some m ->
  links_with m pg_glue = true ->
  gets_instance "postgresql" "postgresql" pg_glue m
    (fresh_world {[ pg_specifier := pg_glue ]} {[ pg_wasm_path := [b] ]}).
Proof.
  intros Hc Hl. split.
  - split; [reflexivity|]. split; [reflexivity|]. apply not_elem_of_empty.
  - exists [b]. split; [|done]. reflexivity.
Qed.

Lemma fresh_world_wf modules disk : world_wf (fresh_world modules disk).
Proof. intros spec i Hl. cbn in Hl. by rewrite lookup_empty in Hl. Qed.

(** C1 on [pg_world]: the first call initialises, the second returns the
    same class and logs nothing of an initialisation. *)
Lemma second_call_returns_same_handle_witness :
  getQueryEngineForProvider "postgresql" pg_world
  = (Return (object 7), pg_ready_world) /\
  exists w2 second,
    getQueryEngineForProvider "postgresql" pg_ready_world
    = (Return (object 7), w2) /\
    trace w2 = trace pg_ready_world ++ second /\
    occurrences is_init_action "postgresql" second = 0.
Proof.
  assert (Hfirst : getQueryEngineForProvider "postgresql" pg_world
                   = (Return (object 7), pg_ready_world)) by reflexivity.
  split; [exact Hfirst|].
  destruct (second_call_returns_same_handle "postgresql" pg_world (object 7)
              pg_ready_world Hfirst)
    as (n & g & w2 & first & second & _ & _ & _ & Hsecond & _ & Htrace & Hnone & _).
  exists w2, second. split; [exact Hsecond|]. split; [exact Htrace|exact Hnone].
Defined.

(** C2 on [pg_trapping_world]: the call fails, the provider stays unmarked,
    and with a working payload put on disk the next call initialises. *)
Lemma start_failure_is_not_marked_witness :
  gets_instance "postgresql" "postgresql" pg_glue trapping_module
    pg_trapping_world /\
  __wbg_set_wasm pg_glue = true /\
  __wbindgen_start trapping_module = start_throws /\
  exists w',
    getQueryEngineForProvider "postgresql" pg_trapping_world
    = (Throw ModuleInitError, w') /\
    ("postgresql" ∉ initializedModules w') /\
    getQueryEngineForProvider "postgresql"
      (set_files {[ pg_wasm_path := [Byte.x00] ]} w')
    = (Return (object 7),
       initialised "postgresql" pg_specifier pg_wasm_path
         (set_files {[ pg_wasm_path := [Byte.x00] ]} w')).
Proof.
  assert (Hinst := pg_gets_instance trapping_module Byte.x01 eq_refl eq_refl).
  split; [exact Hinst|]. split; [reflexivity|]. split; [reflexivity|].
  destruct (start_failure_is_not_marked "postgresql" "postgresql" pg_glue
              trapping_module pg_trapping_world Hinst eq_refl eq_refl)
    as (w' & Hrun & _ & Hout & Hretry).
  exists w'. split; [exact Hrun|]. split; [exact Hout|].
  destruct (Hretry {[ pg_wasm_path := [Byte.x00] ]}) as [_ Hgood].
  exact (Hgood [Byte.x00] good_module eq_refl eq_refl eq_refl eq_refl).
Defined.

(** C3 as stated fails: two requests for ["postgresql"] on a fresh process,
    resumed in turn, compile, instantiate and start twice. *)
Lemma interleaved_requests_initialise_twice :
  ~ at_most_one_initialisation "postgresql"
      (trace (run_schedule [0; 1; 0; 1; 0; 1]
                [Called "postgresql"; Called "postgresql"] pg_world).2).
Proof.
  intros [Hcompile _].
  assert (Htwice : occurrences is_compile "postgresql"
            (trace (run_schedule [0; 1; 0; 1; 0; 1]
                      [Called "postgresql"; Called "postgresql"] pg_world).2) = 2)
    by reflexivity.
  rewrite Htwice in Hcompile. lia.
Qed.

(** C3, as the code has it, on [pg_world] and the same schedule. *)
Lemma two_requests_in_flight_witness :
  gets_instance "postgresql" "postgresql" pg_glue good_module pg_world /\
  __wbg_set_wasm pg_glue = true /\
  __wbindgen_start good_module = start_returns /\
  [0; 1; 0; 1; 0; 1] ∈ interleavings [0; 0; 0] [1; 1; 1] /\
  exists w2 evs,
    run_schedule [0; 1; 0; 1; 0; 1] [Called "postgresql"; Called "postgresql"]
      pg_world
    = ([Settled (Return (object 7)); Settled (Return (object 7))], w2) /\
    trace w2 = trace pg_world ++ evs /\
    occurrences is_compile "postgresql" evs = 2.
Proof.
  assert (Hinst := pg_gets_instance good_module Byte.x00 eq_refl eq_refl).
  assert (Hsched : [0; 1; 0; 1; 0; 1] ∈ interleavings [0; 0; 0] [1; 1; 1]).
  { apply list_elem_of_In. cbn. tauto. }
  split; [exact Hinst|]. split; [reflexivity|]. split; [reflexivity|].
  split; [exact Hsched|].
  destruct (two_requests_in_flight "postgresql" "postgresql" pg_glue good_module
              pg_world [0; 1; 0; 1; 0; 1] Hinst eq_refl eq_refl Hsched)
    as (w2 & evs & Hrun & Htrace & _ & Hcompile & _).
  exists w2, evs. split; [exact Hrun|]. split; [exact Htrace|exact Hcompile].
Defined.

(** C4 on ["oracle"]. *)
Lemma unsupported_provider_fails_before_io_witness :
  normaliseProvider "oracle" = None /\
  getQueryEngineForProvider "oracle" pg_world
  = (Throw (ConfigurationError "oracle"), pg_world).
Proof.
  split; [reflexivity|].
  exact (proj1 (unsupported_provider_fails_before_io "oracle" pg_world eq_refl)).
Defined.

(** C5 on [pg_missing_world], and then with a payload put at the path. *)
Lemma missing_artifact_is_not_marked_witness :
  enters_guard "postgresql" "postgresql" pg_glue pg_missing_world /\
  files pg_missing_world !! pg_wasm_path = None /\
  exists w',
    getQueryEngineForProvider "postgresql" pg_missing_world
    = (Throw (ArtifactNotFoundError pg_wasm_path), w') /\
    ("postgresql" ∉ initializedModules w') /\
    exists w2,
      getQueryEngineForProvider "postgresql"
        (set_files (<[pg_wasm_path := [Byte.x00]]> (files w')) w')
      = (Return (object 7), w2) /\
      "postgresql" ∈ initializedModules w2.
Proof.
  assert (Hguard : enters_guard "postgresql" "postgresql" pg_glue
                     pg_missing_world).
  { split; [reflexivity|]. split; [reflexivity|]. apply not_elem_of_empty. }
  split; [exact Hguard|]. split; [reflexivity|].
  destruct (missing_artifact_is_not_marked "postgresql" "postgresql" pg_glue
              pg_missing_world Hguard eq_refl)
    as (w' & Hrun & _ & Hout & Hretry).
  exists w'. split; [exact Hrun|]. split; [exact Hout|].
  exact (Hretry [Byte.x00] good_module eq_refl eq_refl eq_refl eq_refl).
Defined.

(** C6 on [pg_world]: the log of the first call. *)
Lemma first_initialisation_order_witness :
  ("postgresql" ∉ initializedModules pg_world) /\
  getQueryEngineForProvider "postgresql" pg_world
  = (Return (object 7), pg_ready_world) /\
  trace pg_ready_world
  = [("postgresql", Import pg_specifier); ("postgresql", ReadFile pg_wasm_path);
     ("postgresql", Compile); ("postgresql", Instantiate pg_specifier);
     ("postgresql", SetWasm pg_specifier 0); ("postgresql", Start 0);
     ("postgresql", Mark)].
Proof.
  assert (Hfresh : "postgresql" ∉ initializedModules pg_world)
    by apply not_elem_of_empty.
  assert (Hrun : getQueryEngineForProvider "postgresql" pg_world
                 = (Return (object 7), pg_ready_world)) by reflexivity.
  split; [exact Hfresh|]. split; [exact Hrun|].
  destruct (first_initialisation_order "postgresql" pg_world (object 7)
              pg_ready_world Hfresh Hrun)
    as (n & g & m & _ & _ & _ & Htrace & _).
  reflexivity.
Defined.

(** C8 with the alias: ["postgres"] and ["postgresql"] share the segment
    ["postgresql"], and the second call makes a second instance. *)
Lemma same_segment_initialised_per_raw_provider_witness :
  "postgres" <> "postgresql" /\
  alias_normaliseProvider "postgres" = Some "postgresql" /\
  alias_normaliseProvider "postgresql" = Some "postgresql" /\
  ("postgres" ∉ initializedModules pg_world) /\
  ("postgresql" ∉ initializedModules pg_world) /\
  getQueryEngineForProvider (platform := alias_host) "postgres" pg_world
  = (Return (object 7),
     initialised "postgres" pg_specifier pg_wasm_path pg_world) /\
  exists w2,
    getQueryEngineForProvider (platform := alias_host) "postgresql"
      (initialised "postgres" pg_specifier pg_wasm_path pg_world)
    = (Return (object 7), w2) /\
    instances w2 = 2.
Proof.
  assert (Hne : "postgres" <> "postgresql") by discriminate.
  assert (Hfresh : forall p : string, p ∉ initializedModules pg_world)
    by (intros p; apply not_elem_of_empty).
  assert (Hrun : getQueryEngineForProvider (platform := alias_host) "postgres"
                   pg_world
                 = (Return (object 7),
                    initialised "postgres" pg_specifier pg_wasm_path pg_world))
    by reflexivity.
  split; [exact Hne|]. split; [reflexivity|]. split; [reflexivity|].
  split; [apply Hfresh|]. split; [apply Hfresh|]. split; [exact Hrun|].
  destruct (same_segment_initialised_per_raw_provider (platform := alias_host)
              "postgres" "postgresql" "postgresql" pg_world (object 7) _
              Hne eq_refl eq_refl (Hfresh _) (Hfresh _) Hrun)
    as (w2 & Hsecond & _ & Hmade & _).
  exists w2. split; [exact Hsecond|exact Hmade].
Defined.

(** C9 on [pg_trapping_world]: unbound before the call, bound to instance 0
    after it, although the call failed. *)
Lemma start_failure_leaves_glue_bound_witness :
  gets_instance "postgresql" "postgresql" pg_glue trapping_module
    pg_trapping_world /\
  __wbg_set_wasm pg_glue = true /\
  __wbindgen_start trapping_module = start_throws /\
  world_wf pg_trapping_world /\
  exists w',
    getQueryEngineForProvider "postgresql" pg_trapping_world
    = (Throw ModuleInitError, w') /\
    initializedModules w' = initializedModules pg_trapping_world /\
    glue_wasm w' !! pg_specifier = Some 0 /\
    glue_wasm pg_trapping_world !! pg_specifier = None.
Proof.
  assert (Hinst := pg_gets_instance trapping_module Byte.x01 eq_refl eq_refl).
  assert (Hwf := fresh_world_wf {[ pg_specifier := pg_glue ]}
                   {[ pg_wasm_path := [Byte.x01] ]}).
  split; [exact Hinst|]. split; [reflexivity|]. split; [reflexivity|].
  split; [exact Hwf|].
  destruct (start_failure_leaves_glue_bound "postgresql" "postgresql" pg_glue
              trapping_module pg_trapping_world Hinst eq_refl eq_refl Hwf)
    as (w' & before & Hrun & Hsame & Hbound & _).
  exists w'. split; [exact Hrun|]. split; [exact Hsame|]. split; [exact Hbound|].
  reflexivity.
Defined.

(** C10 on [pg_bare_world], whose glue module exports no [QueryEngine]. *)
Lemma missing_export_returns_undefined_witness :
  normaliseProvider "postgresql" = Some "postgresql" /\
  module_map pg_bare_world !! pg_specifier = Some bare_glue /\
  QueryEngine bare_glue = undefined /\
  exists w',
    getQueryEngineForProvider "postgresql" pg_bare_world
    = (Return undefined, w') /\
    "postgresql" ∈ initializedModules w'.
Proof.
  split; [reflexivity|]. split; [reflexivity|]. split; [reflexivity|].
  apply (missing_export_returns_undefined (platform := spec_host) "postgresql"
           "postgresql" bare_glue pg_bare_world eq_refl eq_refl eq_refl).
  right. exists good_module. split; [|split; reflexivity].
  split.
  - split; [reflexivity|]. split; [reflexivity|]. apply not_elem_of_empty.
  - exists [Byte.x00]. split; [reflexivity|]. split; reflexivity.
Defined.

(** ** The further properties on the concrete host *)

(** A payload that does not compile: the call fails and marks nothing. *)
Lemma failed_call_marks_nothing_witness :
  getQueryEngineForProvider "postgresql" pg_garbled_world
  = (Throw ModuleLinkError, pg_garbled_failed) /\
  initializedModules pg_garbled_failed = initializedModules pg_garbled_world.
Proof.
  assert (Hrun : getQueryEngineForProvider "postgresql" pg_garbled_world
                 = (Throw ModuleLinkError, pg_garbled_failed)) by reflexivity.
  split; [exact Hrun|].
  exact (proj1 (failed_call_marks_nothing (platform := spec_host) "postgresql"
                  pg_garbled_world ModuleLinkError pg_garbled_failed Hrun)).
Defined.

Lemma missing_glue_module_fails_before_guard_witness :
  normaliseProvider "postgresql" = Some "postgresql" /\
  module_map pg_unglued_world !! pg_specifier = None /\
  exists w',
    getQueryEngineForProvider "postgresql" pg_unglued_world
    = (Throw (ArtifactNotFoundError pg_specifier), w') /\
    trace w' = [("postgresql", Import pg_specifier)].
Proof.
  split; [reflexivity|]. split; [reflexivity|].
  destruct (missing_glue_module_fails_before_guard (platform := spec_host)
              "postgresql" "postgresql" pg_unglued_world eq_refl eq_refl)
    as (w' & Hrun & Htrace & _).
  exists w'. split; [exact Hrun|exact Htrace].
Defined.

Lemma pg_enters_guard (g : glue) disk :
  enters_guard "postgresql" "postgresql" g
    (fresh_world {[ pg_specifier := g ]} disk).
Proof.
  split; [reflexivity|]. split; [apply lookup_singleton_eq|].
  apply not_elem_of_empty.
Qed.

Lemma rejected_payload_makes_no_instance_witness :
  enters_guard "postgresql" "postgresql" pg_glue pg_garbled_world /\
  files pg_garbled_world !! pg_wasm_path = Some [Byte.x02] /\
  sample_compile [Byte.x02] = None /\
  exists w',
    getQueryEngineForProvider "postgresql" pg_garbled_world
    = (Throw ModuleLinkError, w') /\
    instances w' = 0.
Proof.
  assert (Hguard := pg_enters_guard pg_glue {[ pg_wasm_path := [Byte.x02] ]}).
  split; [exact Hguard|]. split; [reflexivity|]. split; [reflexivity|].
  destruct (rejected_payload_makes_no_instance (platform := spec_host)
              "postgresql" "postgresql" pg_glue [Byte.x02] pg_garbled_world
              Hguard eq_refl (or_introl eq_refl))
    as (w' & evs & Hrun & _ & Hmade & _).
  exists w'. split; [exact Hrun|exact Hmade].
Defined.

Lemma missing_set_wasm_throws_after_instantiation_witness :
  gets_instance (platform := lenient_host) "postgresql" "postgresql" mute_glue
    lenient_module pg_mute_world /\
  __wbg_set_wasm mute_glue = false /\
  exists w',
    getQueryEngineForProvider (platform := lenient_host) "postgresql" pg_mute_world
    = (Throw TypeError, w') /\
    instances w' = 1 /\
    glue_wasm w' = glue_wasm pg_mute_world.
Proof.
  assert (Hinst : gets_instance (platform := lenient_host) "postgresql"
                    "postgresql" mute_glue lenient_module pg_mute_world).
  { split; [apply (pg_enters_guard mute_glue)|].
    exists [Byte.x00]. split; [reflexivity|]. split; reflexivity. }
  split; [exact Hinst|]. split; [reflexivity|].
  destruct (missing_set_wasm_throws_after_instantiation (platform := lenient_host)
              "postgresql" "postgresql" mute_glue lenient_module pg_mute_world
              Hinst eq_refl)
    as (w' & evs & Hrun & Hmade & Hbound & _).
  exists w'. split; [exact Hrun|]. split; [exact Hmade|exact Hbound].
Defined.

Lemma missing_start_export_throws_after_binding_witness :
  gets_instance (platform := lenient_host) "postgresql" "postgresql" pg_glue
    startless_module pg_startless_world /\
  __wbg_set_wasm pg_glue = true /\
  __wbindgen_start startless_module = start_missing /\
  exists w',
    getQueryEngineForProvider (platform := lenient_host) "postgresql"
      pg_startless_world
    = (Throw TypeError, w') /\
    glue_wasm w' !! pg_specifier = Some 0 /\
    initializedModules w' = initializedModules pg_startless_world.
Proof.
  assert (Hinst : gets_instance (platform := lenient_host) "postgresql"
                    "postgresql" pg_glue startless_module pg_startless_world).
  { split; [apply (pg_enters_guard pg_glue)|].
    exists [Byte.x01]. split; [reflexivity|]. split; reflexivity. }
  split; [exact Hinst|]. split; [reflexivity|]. split; [reflexivity|].
  destruct (missing_start_export_throws_after_binding (platform := lenient_host)
              "postgresql" "postgresql" pg_glue startless_module
              pg_startless_world Hinst eq_refl eq_refl)
    as (w' & evs & Hrun & Hbound & _ & Hsame & _).
  exists w'. split; [exact Hrun|]. split; [exact Hbound|exact Hsame].
Defined.


(** [pg_ready_world] with the disk wiped. *)
Lemma marked_provider_needs_no_payload_witness :
  normaliseProvider "postgresql" = Some "postgresql" /\
  module_map pg_ready_world !! pg_specifier = Some pg_glue /\
  "postgresql" ∈ initializedModules pg_ready_world /\
  exists w',
    getQueryEngineForProvider "postgresql" (set_files ∅ pg_ready_world)
    = (Return (object 7), w') /\
    instances w' = 1.
Proof.
  assert (Hin : "postgresql" ∈ initializedModules pg_ready_world).
  { cbn. by apply elem_of_union_l, elem_of_singleton. }
  split; [reflexivity|]. split; [reflexivity|]. split; [exact Hin|].
  destruct (marked_provider_needs_no_payload (platform := spec_host)
              "postgresql" "postgresql" pg_glue pg_ready_world ∅
              eq_refl eq_refl Hin)
    as (w' & Hrun & _ & _ & Hmade & _).
  exists w'. split; [exact Hrun|exact Hmade].
Defined.

(** The alias and the name it stands for, one freshly initialised, one
    served from the cache: both get the class at address 7. *)
Lemma handle_depends_on_segment_only_witness :
  alias_normaliseProvider "postgres" = Some "postgresql" /\
  alias_normaliseProvider "postgresql" = Some "postgresql" /\
  module_map pg_world = module_map pg_ready_world /\
  getQueryEngineForProvider (platform := alias_host) "postgres" pg_world
  = (Return (object 7),
     initialised "postgres" pg_specifier pg_wasm_path pg_world) /\
  getQueryEngineForProvider (platform := alias_host) "postgresql" pg_ready_world
  = (Return (object 7),
     log pg_ready_world [("postgresql", Import pg_specifier)]) /\
  object 7 = object 7.
Proof.
  assert (H1 : getQueryEngineForProvider (platform := alias_host) "postgres"
                 pg_world
               = (Return (object 7),
                  initialised "postgres" pg_specifier pg_wasm_path pg_world))
    by reflexivity.
  assert (H2 : getQueryEngineForProvider (platform := alias_host) "postgresql"
                 pg_ready_world
               = (Return (object 7),
                  log pg_ready_world [("postgresql", Import pg_specifier)]))
    by reflexivity.
  split; [reflexivity|]. split; [reflexivity|]. split; [reflexivity|].
  split; [exact H1|]. split; [exact H2|].
  exact (handle_depends_on_segment_only (platform := alias_host) "postgres"
           "postgresql" "postgresql" pg_world pg_ready_world (object 7)
           (object 7) _ _ eq_refl eq_refl eq_refl H1 H2).
Defined.

Lemma other_providers_untouched_witness :
  "mysql" <> "postgresql" /\
  ("mysql" ∈ initializedModules
     (getQueryEngineForProvider "postgresql" pg_mysql_world).2
   <-> "mysql" ∈ initializedModules pg_mysql_world).
Proof.
  assert (Hne : "mysql" <> "postgresql") by discriminate.
  split; [exact Hne|].
  exact (proj1 (other_providers_untouched (platform := spec_host) "postgresql"
                  "mysql" pg_mysql_world Hne)).
Defined.

(** After a rejected call and a good one, a third call returns the handle
    of a bound glue module. *)
Lemma returned_handle_is_bound_witness :
  getQueryEngineForProvider "postgresql"
    (call_each ["oracle"; "postgresql"]
       (fresh_world {[ pg_specifier := pg_glue ]} {[ pg_wasm_path := [Byte.x00] ]}))
  = (Return (object 7),
     log pg_ready_world [("postgresql", Import pg_specifier)]) /\
  exists i,
    glue_wasm (log pg_ready_world [("postgresql", Import pg_specifier)])
      !! pg_specifier = Some i /\
    i < 1.
Proof.
  assert (Hrun : getQueryEngineForProvider "postgresql"
            (call_each ["oracle"; "postgresql"]
               (fresh_world {[ pg_specifier := pg_glue ]}
                  {[ pg_wasm_path := [Byte.x00] ]}))
          = (Return (object 7),
             log pg_ready_world [("postgresql", Import pg_specifier)]))
    by (vm_cast_no_check
          (eq_refl (Return (object 7),
                    log pg_ready_world [("postgresql", Import pg_specifier)]))).
  split; [exact Hrun|].
  destruct (returned_handle_is_bound (platform := spec_host)
              {[ pg_specifier := pg_glue ]} {[ pg_wasm_path := [Byte.x00] ]}
              ["oracle"; "postgresql"] "postgresql" (object 7) _ Hrun)
    as (_ & n & i & Hn & Hbound & Hlt).
  exists i. injection Hn as <-. split; [exact Hbound|exact Hlt].
Defined.

(** Two requests for ["postgresql"] resumed in turn: two instances, and the
    glue module holds the second one's export table. *)
Lemma overlapping_requests_rebind_the_glue_witness :
  gets_instance "postgresql" "postgresql" pg_glue good_module pg_world /\
  __wbg_set_wasm pg_glue = true /\
  __wbindgen_start good_module = start_returns /\
  [0; 1; 0; 1; 0; 1] ∈ interleavings [0; 0; 0] [1; 1; 1] /\
  exists pool w2,
    run_schedule [0; 1; 0; 1; 0; 1] [Called "postgresql"; Called "postgresql"]
      pg_world
    = (pool, w2) /\
    instances w2 = 2 /\
    glue_wasm w2 !! pg_specifier = Some 1.
Proof.
  assert (Hinst := pg_gets_instance good_module Byte.x00 eq_refl eq_refl).
  assert (Hsched : [0; 1; 0; 1; 0; 1] ∈ interleavings [0; 0; 0] [1; 1; 1]).
  { apply list_elem_of_In. cbn. tauto. }
  split; [exact Hinst|]. split; [reflexivity|]. split; [reflexivity|].
  split; [exact Hsched|].
  destruct (overlapping_requests_rebind_the_glue (platform := spec_host)
              "postgresql" "postgresql" pg_glue good_module pg_world
              [0; 1; 0; 1; 0; 1] Hinst eq_refl eq_refl Hsched)
    as (pool & w2 & evs & Hrun & _ & Hmade & Hbound & _).
  exists pool, w2. split; [exact Hrun|]. split; [exact Hmade|exact Hbound].
Defined.

Lemma mysql_gets_instance :
  gets_instance "mysql" "mysql" mysql_glue good_module pg_mysql_world.
Proof.
  split.
  - split; [reflexivity|]. split; [reflexivity|]. apply not_elem_of_empty.
  - exists [Byte.x00]. split; [reflexivity|]. split; reflexivity.
Qed.

Lemma pg_gets_instance_beside_mysql :
  gets_instance "postgresql" "postgresql" pg_glue good_module pg_mysql_world.
Proof.
  split.
  - split; [reflexivity|]. split; [reflexivity|]. apply not_elem_of_empty.
  - exists [Byte.x00]. split; [reflexivity|]. split; reflexivity.
Qed.

(** A request for ["postgresql"] and one for ["mysql"], resumed in turn. *)
Lemma distinct_providers_in_flight_witness :
  "postgresql" <> "mysql" /\
  gets_instance "postgresql" "postgresql" pg_glue good_module pg_mysql_world /\
  gets_instance "mysql" "mysql" mysql_glue good_module pg_mysql_world /\
  __wbg_set_wasm pg_glue = true /\
  __wbg_set_wasm mysql_glue = true /\
  __wbindgen_start good_module = start_returns /\
  [0; 1; 0; 1; 0; 1] ∈ interleavings [0; 0; 0] [1; 1; 1] /\
  exists w2,
    run_schedule [0; 1; 0; 1; 0; 1] [Called "postgresql"; Called "mysql"]
      pg_mysql_world
    = ([Settled (Return (object 7)); Settled (Return (object 8))], w2) /\
    instances w2 = 2.
Proof.
  assert (Hne : "postgresql" <> "mysql") by discriminate.
  assert (Hsched : [0; 1; 0; 1; 0; 1] ∈ interleavings [0; 0; 0] [1; 1; 1]).
  { apply list_elem_of_In. cbn. tauto. }
  split; [exact Hne|]. split; [exact pg_gets_instance_beside_mysql|].
  split; [exact mysql_gets_instance|].
  split; [reflexivity|]. split; [reflexivity|]. split; [reflexivity|].
  split; [exact Hsched|].
  destruct (distinct_providers_in_flight (platform := spec_host) "postgresql"
              "mysql" "postgresql" "mysql" pg_glue mysql_glue good_module
              good_module pg_mysql_world [0; 1; 0; 1; 0; 1] Hne
              pg_gets_instance_beside_mysql eq_refl eq_refl
              mysql_gets_instance eq_refl eq_refl Hsched)
    as (w2 & evs & Hrun & _ & _ & _ & _ & _ & _ & _ & Hmade & _).
  exists w2. split; [exact Hrun|exact Hmade].
Defined.
